(** * repeat.py: the retry decorator [__repeat__] and its two wrappers

    A shallow embedding of [src/repeat.py].  The wrapped operation, the
    logger, [time.sleep] and [asyncio.sleep] are collaborators of the
    wrapper: each of their uses is recorded, in program order, in the trace
    of a [World] that the wrappers thread through the retry loop.  The
    logger and [time.sleep] return normally; [asyncio.sleep] is a suspension
    point at which the event loop may throw an exception into the task. *)

From Stdlib Require Import ZArith List String Bool Arith Lia PrimFloat Floats.
Import ListNotations.
Local Open Scope Z_scope.

(** ** Python exceptions *)

(** The exception classes the source names ([Exception], [ConnectionError],
    [ValueError], [TypeError], [RuntimeError]), the classes that sit beside
    [Exception] under [BaseException] (among them [asyncio.CancelledError],
    which derives from [BaseException] since Python 3.8), and classes a
    program defines with [class name(base)]. *)
Inductive ExcClass : Type :=
  | BaseException
  | SystemExit
  | KeyboardInterrupt
  | GeneratorExit
  | CancelledError
  | Exception
  | ArithmeticError
  | ZeroDivisionError
  | LookupError
  | KeyError
  | OSError
  | ConnectionError
  | TimeoutError
  | RuntimeError
  | TypeError
  | ValueError
  | UserClass (name : string) (base : ExcClass).


(** [cls.__mro__] (without [object]). *)
Fixpoint mro (c : ExcClass) : list ExcClass :=
  c :: match c with
       | BaseException => []
       | SystemExit | KeyboardInterrupt | GeneratorExit | CancelledError
       | Exception => [BaseException]
       | ArithmeticError | LookupError | OSError | RuntimeError | TypeError
       | ValueError => [Exception; BaseException]
       | ZeroDivisionError => [ArithmeticError; Exception; BaseException]
       | KeyError => [LookupError; Exception; BaseException]
       | ConnectionError | TimeoutError => [OSError; Exception; BaseException]
       | UserClass _ b => mro b
       end.

Definition ExcClass_eq_dec (a b : ExcClass) : {a = b} + {a <> b}.
Proof. decide equality. apply string_dec. Defined.

Definition ExcClass_eqb (a b : ExcClass) : bool :=
  if ExcClass_eq_dec a b then true else false.

(** [issubclass(c, k)]: [k] occurs in the method resolution order of [c]. *)
Definition issubclass (c k : ExcClass) : bool :=
  existsb (ExcClass_eqb k) (mro c).


(** An exception object: its identity, its runtime type and its payload. *)
Record PyException : Type := mkExc {
  exc_id : nat;
  exc_class : ExcClass;
  exc_args : string
}.

(** The [exceptions] argument: one class, or a tuple of classes. *)
Inductive ExceptionsArg : Type :=
  | OneClass (c : ExcClass)
  | ClassTuple (cs : list ExcClass).


(** Whether the clause [except exceptions as ex] catches [ex]:
    [isinstance(ex, exceptions)]. *)
Definition isinstance (ex : PyException) (exceptions : ExceptionsArg) : bool :=
  match exceptions with
  | OneClass c => issubclass (exc_class ex) c
  | ClassTuple cs => existsb (issubclass (exc_class ex)) cs
  end.


(** ** Numbers *)

(** What the wrappers ask of [delay] and [backoff]: [current_delay *= backoff]
    and [current_delay > 0].  Python floats are binary64 ([PrimFloat]);
    Python ints are unbounded ([Z]). *)
Class PyNumber (T : Type) : Type := {
  py_mul : T -> T -> T;
  py_gt0 : T -> bool
}.

#[global] Instance PyFloat : PyNumber float := {
  py_mul := PrimFloat.mul;
  py_gt0 := fun x => PrimFloat.ltb 0%float x
}.

#[global] Instance PyInt : PyNumber Z := {
  py_mul := Z.mul;
  py_gt0 := fun x => 0 <? x
}.

(** ** The world of one wrapper *)

(** What the wrapper does to its collaborators.  A log event carries the
    values interpolated into the message of the source's f-string. *)
Inductive Event (T : Type) : Type :=
  | EvCall                                  (* the call of func *)
  | EvWarning (attempt_no tries : Z) (ex : PyException) (current_delay : T)
  | EvTimeSleep (d : T)                     (* time.sleep(d) *)
  | EvAsyncioSleep (d : T)                  (* await asyncio.sleep(d) *)
  | EvError (tries : Z) (ex : PyException).

Arguments EvCall {T}.
Arguments EvWarning {T} attempt_no tries ex current_delay.
Arguments EvTimeSleep {T} d.
Arguments EvAsyncioSleep {T} d.
Arguments EvError {T} tries ex.

(** [calls]: how many times the operation has been invoked so far;
    [trace]: the events so far, oldest first. *)
Record World (T : Type) : Type := mkWorld {
  calls : nat;
  trace : list (Event T)
}.

Arguments mkWorld {T} calls trace.
Arguments calls {T} w.
Arguments trace {T} w.

(** How one invocation of the operation ends. *)
Inductive Outcome (V : Type) : Type :=
  | Return (v : V)
  | Raise (ex : PyException).

Arguments Return {V} v.
Arguments Raise {V} ex.

(** How a call of the wrapper ends.  [RaisedNone] is [raise last_exception]
    executed while [last_exception] is [None]: the interpreter raises a
    [TypeError] of its own (exceptions must derive from BaseException). *)
Inductive Result (V : Type) : Type :=
  | Returned (v : V)
  | Raised (ex : PyException)
  | RaisedNone.

Arguments Returned {V} v.
Arguments Raised {V} ex.
Arguments RaisedNone {V}.

(** The wrapped operation is a black box: [func args k] is how its [k]-th
    invocation (counted from 0) with the arguments [args] ends. *)
Definition Operation (Args V : Type) : Type := Args -> nat -> Outcome V.

(** The event loop under a task: [loop k] is how the [asyncio.sleep] awaited
    after [k] invocations resumes: normally ([None]), or with an exception
    thrown into the task at that suspension point (a cancellation). *)
Definition EventLoop : Type := nat -> option PyException.

(** [range(n)] *)
Definition range (n : Z) : list Z := map Z.of_nat (seq 0 (Z.to_nat n)).

Section Wrappers.
Context {T : Type} {num : PyNumber T} {Args V : Type}.

(** The call [func( *args, **kwargs)] of the loop body. *)
Definition invoke (func : Operation Args V) (args : Args) (w : World T)
    : Outcome V * World T :=
    (func args (calls w), mkWorld (S (calls w)) (trace w ++ [EvCall])).

Definition emit (e : Event T) (w : World T) : World T :=
    mkWorld (calls w) (trace w ++ [e]).

(** [logger.warning(f"Attempt {attempt + 1}/{tries} failed: {ex}. "
                      f"Retrying in {current_delay:.2f}s...")] *)
Definition logger_warning (attempt_no tries : Z) (ex : PyException)
      (current_delay : T) : World T -> World T :=
    emit (EvWarning attempt_no tries ex current_delay).

(** [logger.error(f"All {tries} attempts failed. Last error: {ex}")] *)
Definition logger_error (tries : Z) (ex : PyException) : World T -> World T :=
    emit (EvError tries ex).

Definition time_sleep (d : T) : World T -> World T := emit (EvTimeSleep d).

Definition asyncio_sleep (loop : EventLoop) (d : T) (w : World T)
    : option PyException * World T :=
    (loop (calls w), emit (EvAsyncioSleep d) w).

(** [raise last_exception] *)
Definition raise_last (last_exception : option PyException) : Result V :=
    match last_exception with
    | Some ex => Raised ex
    | None => RaisedNone
    end.

Section Closure.
(** The variables a wrapper closes over. *)
Variable func : Operation Args V.
Variable tries : Z.
Variable delay : T.
Variable exceptions : ExceptionsArg.
Variable backoff : T.

(** The body of [for attempt in range(tries)] of [wrapper_sync], over the
        attempts still to run, and the [raise last_exception] after it. *)
Fixpoint sync_loop (args : Args) (attempts : list Z)
        (last_exception : option PyException) (current_delay : T)
        (w : World T) : Result V * World T :=
      match attempts with
      | [] => (raise_last last_exception, w)
      | attempt :: rest =>
          match invoke func args w with
          | (Return v, w1) => (Returned v, w1)
          | (Raise ex, w1) =>
              if isinstance ex exceptions then
                if attempt <? tries - 1 then
                  let w2 := logger_warning (attempt + 1) tries ex current_delay w1 in
                  let w3 := if py_gt0 current_delay
                            then time_sleep current_delay w2 else w2 in
                  sync_loop args rest (Some ex) (py_mul current_delay backoff) w3
                else
                  let w2 := logger_error tries ex w1 in
                  sync_loop args rest (Some ex) current_delay w2
              else (Raised ex, w1)
          end
      end.

Definition wrapper_sync (args : Args) (w : World T) : Result V * World T :=
      sync_loop args (range tries) None delay w.

(** [executor]: it awaits the call of [func] and returns its result. *)
Definition executor (args : Args) (w : World T) : Outcome V * World T :=
      invoke func args w.

(** The loop of [wrapper_async].  An exception that [await asyncio.sleep]
        raises is raised inside the [except] block and leaves the wrapper. *)
Fixpoint async_loop (loop : EventLoop) (args : Args) (attempts : list Z)
        (last_exception : option PyException) (current_delay : T)
        (w : World T) : Result V * World T :=
      match attempts with
      | [] => (raise_last last_exception, w)
      | attempt :: rest =>
          match executor args w with
          | (Return v, w1) => (Returned v, w1)
          | (Raise ex, w1) =>
              if isinstance ex exceptions then
                if attempt <? tries - 1 then
                  let w2 := logger_warning (attempt + 1) tries ex current_delay w1 in
                  if py_gt0 current_delay then
                    match asyncio_sleep loop current_delay w2 with
                    | (None, w3) =>
                        async_loop loop args rest (Some ex)
                          (py_mul current_delay backoff) w3
                    | (Some cancel, w3) => (Raised cancel, w3)
                    end
                  else
                    async_loop loop args rest (Some ex)
                      (py_mul current_delay backoff) w2
                else
                  let w2 := logger_error tries ex w1 in
                  async_loop loop args rest (Some ex) current_delay w2
              else (Raised ex, w1)
          end
      end.

Definition wrapper_async (loop : EventLoop) (args : Args) (w : World T)
      : Result V * World T :=
      async_loop loop args (range tries) None delay w.

End Closure.

Definition _create_sync_wrapper (func : Operation Args V) (tries : Z)
      (delay : T) (exceptions : ExceptionsArg) (backoff : T)
    : Args -> World T -> Result V * World T :=
    wrapper_sync func tries delay exceptions backoff.

Definition _create_async_wrapper (func : Operation Args V) (tries : Z)
      (delay : T) (exceptions : ExceptionsArg) (backoff : T)
    : EventLoop -> Args -> World T -> Result V * World T :=
    wrapper_async func tries delay exceptions backoff.

End Wrappers.

(** ** The decorator *)

(** A callable as [decorator_repeat] sees it: what
    [inspect.iscoroutinefunction] answers, and its behaviour when called
    (and, for a coroutine function, awaited). *)
Record Callable (Args V : Type) : Type := mkCallable {
  iscoroutinefunction : bool;
  behaviour : Operation Args V
}.

Arguments mkCallable {Args V} iscoroutinefunction behaviour.
Arguments iscoroutinefunction {Args V} c.
Arguments behaviour {Args V} c.

(** What binding returns: a function, or a coroutine function (which runs on
    an event loop). *)
Inductive Wrapper (T Args V : Type) : Type :=
  | SyncWrapper (run : Args -> World T -> Result V * World T)
  | AsyncWrapper (run : EventLoop -> Args -> World T -> Result V * World T).

Arguments SyncWrapper {T Args V} run.
Arguments AsyncWrapper {T Args V} run.

Definition decorator_repeat {T : Type} {num : PyNumber T} {Args V : Type}
    (tries : Z) (delay : T) (exceptions : ExceptionsArg) (backoff : T)
    (func : Callable Args V) : Wrapper T Args V :=
  if iscoroutinefunction func then
    AsyncWrapper (_create_async_wrapper (behaviour func) tries delay exceptions backoff)
  else
    SyncWrapper (_create_sync_wrapper (behaviour func) tries delay exceptions backoff).

(** A keyword argument that the caller may leave out. *)
Definition keyword {A : Type} (given : option A) (default : A) : A :=
  match given with
  | Some a => a
  | None => default
  end.

(** [__repeat__(_func=None, *, tries=5, delay=0.0, exceptions=Exception,
    backoff=1.0)]: the decorator itself when [_func] is [None], the wrapped
    [_func] otherwise. *)
Definition __repeat__ {Args V : Type} (_func : option (Callable Args V))
    (tries : option Z) (delay : option float)
    (exceptions : option ExceptionsArg) (backoff : option float)
  : (Callable Args V -> Wrapper float Args V) + Wrapper float Args V :=
  let tries := keyword tries 5 in
  let delay := keyword delay 0.0%float in
  let exceptions := keyword exceptions (OneClass Exception) in
  let backoff := keyword backoff 1.0%float in
  match _func with
  | None => inl (decorator_repeat tries delay exceptions backoff)
  | Some f => inr (decorator_repeat tries delay exceptions backoff f)
  end.

(** ** Observations on traces *)

Definition is_call {T : Type} (e : Event T) : bool :=
  match e with
  | EvCall => true
  | _ => false
  end.

(** How many times the trace invokes the operation. *)
Definition invocations {T : Type} (tr : list (Event T)) : nat :=
  List.length (filter is_call tr).

Definition is_log {T : Type} (e : Event T) : bool :=
  match e with
  | EvWarning _ _ _ _ | EvError _ _ => true
  | _ => false
  end.

(** What reaches the logger. *)
Definition log_of {T : Type} (tr : list (Event T)) : list (Event T) :=
  filter is_log tr.

Definition sleep_of {T : Type} (e : Event T) : list T :=
  match e with
  | EvTimeSleep d | EvAsyncioSleep d => [d]
  | _ => []
  end.

(** The waits of a trace, in order. *)
Definition sleeps {T : Type} (tr : list (Event T)) : list T :=
  flat_map sleep_of tr.





(** [current_delay] after [k] executions of [current_delay *= backoff]. *)
Fixpoint delay_at {T : Type} {num : PyNumber T} (d0 b : T) (k : nat) : T :=
  match k with
  | O => d0
  | S k' => py_mul (delay_at d0 b k') b
  end.

(** The events of one attempt that fails and is retried. *)
Definition retry_block {T : Type} {num : PyNumber T} (sleep : T -> Event T)
    (tries : Z) (attempt : nat) (ex : PyException) (d : T) : list (Event T) :=
  EvCall :: EvWarning (Z.of_nat attempt + 1) tries ex d
         :: (if py_gt0 d then [sleep d] else []).

(** The events of [m] attempts in a row that fail and are retried, the first
    being attempt [a], invocation [c] of the operation, under the delay [d];
    [excs k] is the exception that invocation [k] raises. *)
Fixpoint retry_events {T : Type} {num : PyNumber T} (sleep : T -> Event T)
    (tries : Z) (excs : nat -> PyException) (b : T) (a c : nat) (d : T)
    (m : nat) : list (Event T) :=
  match m with
  | O => []
  | S m' =>
      retry_block sleep tries a (excs c) d
        ++ retry_events sleep tries excs b (S a) (S c) (py_mul d b) m'
  end.

(** Invocations [c], ..., [c + m - 1] of the operation raise the exceptions
    [excs c], ..., and the [except] clause catches each of them. *)
Definition fails_retryably {Args V : Type} (func : Operation Args V)
    (args : Args) (exceptions : ExceptionsArg) (excs : nat -> PyException)
    (c m : nat) : Prop :=
  forall k, (c <= k < c + m)%nat ->
    func args k = Raise (excs k) /\ isinstance (excs k) exceptions = true.

(** The event loop lets the sleeps after invocations [c + 1], ..., [c + m]
    run to their end. *)
Definition undisturbed (loop : EventLoop) (c m : nat) : Prop :=
  forall k, (c < k <= c + m)%nat -> loop k = None.



(** What [__repeat__] returned, applied as a decorator to [func] when it is
    the decorator. *)
Definition bound {T Args V : Type}
    (r : (Callable Args V -> Wrapper T Args V) + Wrapper T Args V)
    (func : Callable Args V) : Wrapper T Args V :=
  match r with
  | inl decorator => decorator func
  | inr wrapper => wrapper
  end.

(** A call of the wrapped form (awaited on [loop] when it is a coroutine
    function). *)
Definition call_wrapper {T Args V : Type} (wrapper : Wrapper T Args V)
    (loop : EventLoop) (args : Args) (w : World T) : Result V * World T :=
  match wrapper with
  | SyncWrapper run => run args w
  | AsyncWrapper run => run loop args w
  end.

(** ** The functions of the demonstration *)

(** Each call of a demonstration function builds a new exception object; the
    model gives the object built by invocation [k] the identity [k]. *)

(** [def test_sync(): raise Exception("Sync test exception")] *)
Definition test_sync : Callable unit unit :=
  mkCallable false (fun _ k => Raise (mkExc k Exception "Sync test exception")).

(** [async def test_async(): raise Exception("Async test exception")] *)
Definition test_async : Callable unit unit :=
  mkCallable true (fun _ k => Raise (mkExc k Exception "Async test exception")).


(** [def test_specific_exception(): raise RuntimeError(...)] *)
Definition test_specific_exception : Callable unit unit :=
  mkCallable false
    (fun _ k => Raise (mkExc k RuntimeError "This won't be retried")).




(** An event loop that never cancels, and one that cancels the task during
    the sleep after the second invocation. *)
Definition quiet_loop : EventLoop := fun _ => None.

Definition cancelling_loop : EventLoop :=
  fun k => if (k =? 2)%nat then Some (mkExc 100 CancelledError "") else None.

(** A fresh world. *)
Definition new_world {T : Type} : World T := mkWorld 0 [].

(** ** Any operation *)

(** Whether invocation [k] raises an exception that the [except] clause
    catches. *)
Definition caught {Args V : Type} (func : Operation Args V) (args : Args)
    (exceptions : ExceptionsArg) (k : nat) : bool :=
  match func args k with
  | Raise ex => isinstance ex exceptions
  | Return _ => false
  end.

(** How many of the invocations [c], [c + 1], ..., at most [n] of them, raise
    in a row an exception that the [except] clause catches. *)
Fixpoint caught_in_a_row {Args V : Type} (func : Operation Args V)
    (args : Args) (exceptions : ExceptionsArg) (c n : nat) : nat :=
  match n with
  | O => O
  | S n' =>
      if caught func args exceptions c
      then S (caught_in_a_row func args exceptions (S c) n')
      else O
  end.

(** The exception that invocation [k] raises (read only where it raises). *)
Definition raised_at {Args V : Type} (func : Operation Args V) (args : Args)
    (k : nat) : PyException :=
  match func args k with
  | Raise ex => ex
  | Return _ => mkExc 0 BaseException ""
  end.

(** A call that ends the way an invocation of the operation ends. *)
Definition result_of {V : Type} (o : Outcome V) : Result V :=
  match o with
  | Return v => Returned v
  | Raise ex => Raised ex
  end.

(** The [logger.error] that follows invocation [k] when it raises a caught
    exception and no attempt is left. *)
Definition error_of {T Args V : Type} (func : Operation Args V) (args : Args)
    (tries : Z) (exceptions : ExceptionsArg) (k : nat) : list (Event T) :=
  match func args k with
  | Raise ex => if isinstance ex exceptions then [EvError tries ex] else []
  | Return _ => []
  end.



(** A float that is a zero (of either sign) or not a number. *)
Definition zero_or_nan (x : float) : Prop :=
  match Prim2SF x with
  | S754_zero _ | S754_nan => True
  | _ => False
  end.

(** ** The class hierarchy *)










(** ** Backoff *)

Lemma delay_at_shift {T : Type} {num : PyNumber T} (d b : T) (k : nat) :
  delay_at (py_mul d b) b k = delay_at d b (S k).
Proof.
  induction k as [| k IH]; simpl; [reflexivity |].
  rewrite IH. reflexivity.
Qed.


(** ** The retry loop, one attempt at a time *)

Section LoopFacts.
Context {T : Type} {num : PyNumber T} {Args V : Type}.
Variable func : Operation Args V.
Variable tries : Z.
Variable exceptions : ExceptionsArg.
Variable backoff : T.
Variable args : Args.

Lemma world_eta (w : World T) : mkWorld (calls w) (trace w) = w.
Proof. destruct w; reflexivity. Qed.

Lemma range_empty (n : Z) : n <= 0 -> range n = [].
Proof.
  intros Hn. unfold range.
  replace (Z.to_nat n) with O by lia. reflexivity.
Qed.

Lemma range_last (n : Z) :
  1 <= n ->
  range n = map Z.of_nat (seq 0 (Z.to_nat n - 1)) ++ [n - 1].
Proof.
  intros Hn. unfold range.
  replace (Z.to_nat n) with (S (Z.to_nat n - 1)) at 1 by lia.
  rewrite seq_S, map_app. simpl. do 2 f_equal. lia.
Qed.

(** *** Blocking mode *)

Lemma sync_step_return attempt rest last d w v :
  func args (calls w) = Return v ->
  sync_loop func tries exceptions backoff args (attempt :: rest) last d w
  = (Returned v, mkWorld (S (calls w)) (trace w ++ [EvCall])).
Proof. intros Hf. simpl. rewrite Hf. reflexivity. Qed.

Lemma sync_step_propagate attempt rest last d w ex :
  func args (calls w) = Raise ex ->
  isinstance ex exceptions = false ->
  sync_loop func tries exceptions backoff args (attempt :: rest) last d w
  = (Raised ex, mkWorld (S (calls w)) (trace w ++ [EvCall])).
Proof. intros Hf Hi. simpl. rewrite Hf, Hi. reflexivity. Qed.

Lemma sync_step_retry attempt rest last d w ex :
  func args (calls w) = Raise ex ->
  isinstance ex exceptions = true ->
  Z.of_nat attempt < tries - 1 ->
  sync_loop func tries exceptions backoff args
    (Z.of_nat attempt :: rest) last d w
  = sync_loop func tries exceptions backoff args rest (Some ex)
      (py_mul d backoff)
      (mkWorld (S (calls w))
         (trace w ++ retry_block EvTimeSleep tries attempt ex d)).
Proof.
  intros Hf Hi Ha. simpl. rewrite Hf, Hi.
  apply Z.ltb_lt in Ha. rewrite Ha.
  unfold retry_block, logger_warning, time_sleep, emit. simpl.
  destruct (py_gt0 d); simpl; rewrite <- ?app_assoc; reflexivity.
Qed.

Lemma sync_step_exhausted attempt rest last d w ex :
  func args (calls w) = Raise ex ->
  isinstance ex exceptions = true ->
  tries - 1 <= attempt ->
  sync_loop func tries exceptions backoff args (attempt :: rest) last d w
  = sync_loop func tries exceptions backoff args rest (Some ex) d
      (mkWorld (S (calls w)) (trace w ++ [EvCall; EvError tries ex])).
Proof.
  intros Hf Hi Ha. simpl. rewrite Hf, Hi.
  apply Z.ltb_ge in Ha. rewrite Ha.
  unfold logger_error, emit. simpl. rewrite <- app_assoc. reflexivity.
Qed.

(** [m] attempts in a row that fail and are retried. *)
Lemma sync_loop_retries (excs : nat -> PyException) (m : nat) :
  forall (a : nat) (d : T) last (w : World T) rest,
    fails_retryably func args exceptions excs (calls w) m ->
    Z.of_nat (a + m) <= tries - 1 ->
    sync_loop func tries exceptions backoff args
      (map Z.of_nat (seq a m) ++ rest) last d w
    = sync_loop func tries exceptions backoff args rest
        (match m with O => last | S m' => Some (excs (calls w + m')%nat) end)
        (delay_at d backoff m)
        (mkWorld (calls w + m)
           (trace w ++ retry_events EvTimeSleep tries excs backoff a (calls w) d m)).
Proof.
  induction m as [| m IH]; intros a d last w rest Hfail Hlt.
  - simpl. rewrite Nat.add_0_r, app_nil_r, world_eta. reflexivity.
  - destruct (Hfail (calls w)) as [Hf Hi]; [lia |].
    simpl seq. simpl map. simpl app.
    rewrite (sync_step_retry a _ last d w (excs (calls w)) Hf Hi) by lia.
    rewrite IH.
    + simpl calls. simpl trace. rewrite delay_at_shift.
      simpl retry_events. rewrite <- app_assoc.
      replace (S (calls w) + m)%nat with (calls w + S m)%nat by lia.
      f_equal. destruct m as [| m'].
      * now rewrite Nat.add_0_r.
      * f_equal. f_equal. lia.
    + intros k Hk. apply Hfail. simpl in Hk. lia.
    + lia.
Qed.

(** *** Suspending mode *)

Lemma async_step_return loop attempt rest last d w v :
  func args (calls w) = Return v ->
  async_loop func tries exceptions backoff loop args (attempt :: rest) last d w
  = (Returned v, mkWorld (S (calls w)) (trace w ++ [EvCall])).
Proof. intros Hf. simpl. rewrite Hf. reflexivity. Qed.

Lemma async_step_propagate loop attempt rest last d w ex :
  func args (calls w) = Raise ex ->
  isinstance ex exceptions = false ->
  async_loop func tries exceptions backoff loop args (attempt :: rest) last d w
  = (Raised ex, mkWorld (S (calls w)) (trace w ++ [EvCall])).
Proof. intros Hf Hi. simpl. rewrite Hf, Hi. reflexivity. Qed.

Lemma async_step_retry loop attempt rest last d w ex :
  func args (calls w) = Raise ex ->
  isinstance ex exceptions = true ->
  Z.of_nat attempt < tries - 1 ->
  loop (S (calls w)) = None ->
  async_loop func tries exceptions backoff loop args
    (Z.of_nat attempt :: rest) last d w
  = async_loop func tries exceptions backoff loop args rest (Some ex)
      (py_mul d backoff)
      (mkWorld (S (calls w))
         (trace w ++ retry_block EvAsyncioSleep tries attempt ex d)).
Proof.
  intros Hf Hi Ha Hl. simpl. rewrite Hf, Hi.
  apply Z.ltb_lt in Ha. rewrite Ha.
  unfold retry_block, logger_warning, asyncio_sleep, emit. simpl.
  destruct (py_gt0 d); simpl; rewrite ?Hl, <- ?app_assoc; reflexivity.
Qed.


Lemma async_step_exhausted loop attempt rest last d w ex :
  func args (calls w) = Raise ex ->
  isinstance ex exceptions = true ->
  tries - 1 <= attempt ->
  async_loop func tries exceptions backoff loop args (attempt :: rest) last d w
  = async_loop func tries exceptions backoff loop args rest (Some ex) d
      (mkWorld (S (calls w)) (trace w ++ [EvCall; EvError tries ex])).
Proof.
  intros Hf Hi Ha. simpl. rewrite Hf, Hi.
  apply Z.ltb_ge in Ha. rewrite Ha.
  unfold logger_error, emit. simpl. rewrite <- app_assoc. reflexivity.
Qed.

Lemma async_loop_retries loop (excs : nat -> PyException) (m : nat) :
  forall (a : nat) (d : T) last (w : World T) rest,
    fails_retryably func args exceptions excs (calls w) m ->
    undisturbed loop (calls w) m ->
    Z.of_nat (a + m) <= tries - 1 ->
    async_loop func tries exceptions backoff loop args
      (map Z.of_nat (seq a m) ++ rest) last d w
    = async_loop func tries exceptions backoff loop args rest
        (match m with O => last | S m' => Some (excs (calls w + m')%nat) end)
        (delay_at d backoff m)
        (mkWorld (calls w + m)
           (trace w
              ++ retry_events EvAsyncioSleep tries excs backoff a (calls w) d m)).
Proof.
  induction m as [| m IH]; intros a d last w rest Hfail Hloop Hlt.
  - simpl. rewrite Nat.add_0_r, app_nil_r, world_eta. reflexivity.
  - destruct (Hfail (calls w)) as [Hf Hi]; [lia |].
    simpl seq. simpl map. simpl app.
    rewrite (async_step_retry loop a _ last d w (excs (calls w)) Hf Hi)
      by (try apply Hloop; lia).
    rewrite IH.
    + simpl calls. simpl trace. rewrite delay_at_shift.
      simpl retry_events. rewrite <- app_assoc.
      replace (S (calls w) + m)%nat with (calls w + S m)%nat by lia.
      f_equal. destruct m as [| m'].
      * now rewrite Nat.add_0_r.
      * f_equal. f_equal. lia.
    + intros k Hk. apply Hfail. simpl in Hk. lia.
    + intros k Hk. apply Hloop. simpl in Hk. lia.
    + lia.
Qed.

End LoopFacts.

(** ** Traces *)

Section TraceFacts.
Context {T : Type} {num : PyNumber T}.

Lemma invocations_app (tr1 tr2 : list (Event T)) :
  invocations (tr1 ++ tr2) = (invocations tr1 + invocations tr2)%nat.
Proof. unfold invocations. now rewrite filter_app, length_app. Qed.

Lemma log_of_app (tr1 tr2 : list (Event T)) :
  log_of (tr1 ++ tr2) = log_of tr1 ++ log_of tr2.
Proof. apply filter_app. Qed.

Lemma sleeps_app (tr1 tr2 : list (Event T)) :
  sleeps (tr1 ++ tr2) = sleeps tr1 ++ sleeps tr2.
Proof. apply flat_map_app. Qed.











End TraceFacts.

(** ** What the loops do on every operation *)

Section LoopInvariants.
Context {T : Type} {num : PyNumber T} {Args V : Type}.
Variable func : Operation Args V.
Variable tries : Z.
Variable exceptions : ExceptionsArg.
Variable backoff : T.
Variable args : Args.

(** Whatever leaves the blocking loop came from the last invocation made,
    or, when no invocation was made, is [last_exception]. *)
Lemma sync_loop_result attempts :
  forall last d (w : World T) r w',
    sync_loop func tries exceptions backoff args attempts last d w = (r, w') ->
    match r with
    | Returned v =>
        (calls w < calls w')%nat /\ func args (calls w' - 1)%nat = Return v
    | Raised ex =>
        (attempts = [] /\ last = Some ex /\ w' = w) \/
        ((calls w < calls w')%nat /\ func args (calls w' - 1)%nat = Raise ex)
    | RaisedNone => attempts = [] /\ last = None /\ w' = w
    end.
Proof.
  induction attempts as [| attempt rest IH]; intros last d w r w' Hrun.
  - simpl in Hrun. inversion Hrun; subst. destruct last; simpl; auto.
  - simpl in Hrun. destruct (func args (calls w)) as [v | ex] eqn:Hf.
    + inversion Hrun; subst. simpl. rewrite Nat.sub_0_r. auto with arith.
    + destruct (isinstance ex exceptions).
      * assert (Hnext : exists d' w1, calls w1 = S (calls w) /\
                  sync_loop func tries exceptions backoff args rest
                    (Some ex) d' w1 = (r, w')).
        { destruct (attempt <? tries - 1).
          - destruct (py_gt0 d); eexists; eexists; (split; [| exact Hrun]);
              reflexivity.
          - eexists; eexists; (split; [| exact Hrun]); reflexivity. }
        destruct Hnext as [d' [w1 [Hc Hnext]]].
        apply IH in Hnext. destruct r as [v | ex' |].
        -- destruct Hnext as [Hlt Hv]. split; [lia | assumption].
        -- right. destruct Hnext as [[_ [Hl Hw]] | [Hlt Hv]].
           ++ inversion Hl; subst. rewrite Hc.
              simpl. rewrite Nat.sub_0_r. split; [lia | assumption].
           ++ split; [lia | assumption].
        -- destruct Hnext as [_ [Hl _]]. discriminate.
      * inversion Hrun; subst. right. simpl. rewrite Nat.sub_0_r.
        auto with arith.
Qed.

(** The same for the suspending loop, where an exception may also come from
    the event loop during the wait after the last invocation. *)
Lemma async_loop_result loop attempts :
  forall last d (w : World T) r w',
    async_loop func tries exceptions backoff loop args attempts last d w
    = (r, w') ->
    match r with
    | Returned v =>
        (calls w < calls w')%nat /\ func args (calls w' - 1)%nat = Return v
    | Raised ex =>
        (attempts = [] /\ last = Some ex /\ w' = w) \/
        ((calls w < calls w')%nat /\
         (func args (calls w' - 1)%nat = Raise ex \/
          loop (calls w') = Some ex))
    | RaisedNone => attempts = [] /\ last = None /\ w' = w
    end.
Proof.
  induction attempts as [| attempt rest IH]; intros last d w r w' Hrun.
  - simpl in Hrun. inversion Hrun; subst. destruct last; simpl; auto.
  - simpl in Hrun. destruct (func args (calls w)) as [v | ex] eqn:Hf.
    + inversion Hrun; subst. simpl. rewrite Nat.sub_0_r. auto with arith.
    + destruct (isinstance ex exceptions).
      * assert (Hnext :
          (exists d' w1, calls w1 = S (calls w) /\
             async_loop func tries exceptions backoff loop args rest
               (Some ex) d' w1 = (r, w')) \/
          (exists cancel, loop (S (calls w)) = Some cancel /\
             r = Raised cancel /\ calls w' = S (calls w))).
        { destruct (attempt <? tries - 1).
          - destruct (py_gt0 d).
            + unfold asyncio_sleep in Hrun. simpl in Hrun.
              destruct (loop (S (calls w))) as [cancel |] eqn:Hl.
              * right. exists cancel. inversion Hrun; subst. auto.
              * left. eexists; eexists; (split; [| exact Hrun]); reflexivity.
            + left. eexists; eexists; (split; [| exact Hrun]); reflexivity.
          - left. eexists; eexists; (split; [| exact Hrun]); reflexivity. }
        destruct Hnext as [[d' [w1 [Hc Hnext]]] | [cancel [Hl [Hr Hc]]]].
        -- apply IH in Hnext. destruct r as [v | ex' |].
           ++ destruct Hnext as [Hlt Hv]. split; [lia | assumption].
           ++ right. destruct Hnext as [[_ [Hl Hw]] | [Hlt Hv]].
              ** inversion Hl; subst. rewrite Hc.
                 simpl. rewrite Nat.sub_0_r. split; [lia | auto].
              ** split; [lia | assumption].
           ++ destruct Hnext as [_ [Hl _]]. discriminate.
        -- subst r. right. rewrite Hc. split; [lia | auto].
      * inversion Hrun; subst. right. simpl. rewrite Nat.sub_0_r.
        auto with arith.
Qed.

(** The counter of the world and the calls in its trace move together. *)
Lemma sync_loop_counts attempts :
  forall last d (w : World T),
    let w' := snd (sync_loop func tries exceptions backoff args attempts last d w) in
    (invocations (trace w') + calls w = invocations (trace w) + calls w')%nat.
Proof.
  induction attempts as [| attempt rest IH]; intros last d w; simpl.
  - reflexivity.
  - destruct (func args (calls w)) as [v | ex];
      [| destruct (isinstance ex exceptions);
         [destruct (attempt <? tries - 1); [destruct (py_gt0 d) |] |]];
      try match goal with
        | |- context [sync_loop _ _ _ _ _ _ ?l ?d' ?w1] =>
            specialize (IH l d' w1); simpl in IH; revert IH
        end;
      unfold logger_warning, logger_error, time_sleep, emit, invocations;
      simpl; rewrite ?filter_app, ?length_app; simpl; lia.
Qed.

End LoopInvariants.

(** ** Whole runs of the wrappers *)

Section Runs.
Context {T : Type} {num : PyNumber T} {Args V : Type}.
Variable func : Operation Args V.
Variable tries : Z.
Variable delay : T.
Variable exceptions : ExceptionsArg.
Variable backoff : T.
Variable args : Args.

(** [range(tries)] around its attempt [j]. *)
Lemma range_split (j : nat) :
  Z.of_nat j < tries ->
  range tries
  = map Z.of_nat (seq 0 j)
      ++ Z.of_nat j :: map Z.of_nat (seq (S j) (Z.to_nat tries - S j)).
Proof.
  intros Hj. unfold range.
  replace (Z.to_nat tries) with (j + S (Z.to_nat tries - S j))%nat at 1 by lia.
  rewrite seq_app, map_app. reflexivity.
Qed.

(** The operation fails [j] times and is retried, then returns. *)
Lemma wrapper_sync_returns excs (j : nat) (w : World T) v :
  Z.of_nat j < tries ->
  fails_retryably func args exceptions excs (calls w) j ->
  func args (calls w + j)%nat = Return v ->
  wrapper_sync func tries delay exceptions backoff args w
  = (Returned v,
     mkWorld (S (calls w + j))
       (trace w
          ++ retry_events EvTimeSleep tries excs backoff 0 (calls w) delay j
          ++ [EvCall])).
Proof.
  intros Hj Hfail Hret. unfold wrapper_sync.
  rewrite (range_split j Hj), sync_loop_retries with (excs := excs)
    by (assumption || lia).
  rewrite sync_step_return with (v := v) by assumption.
  simpl. now rewrite <- app_assoc.
Qed.

Lemma wrapper_async_returns loop excs (j : nat) (w : World T) v :
  Z.of_nat j < tries ->
  fails_retryably func args exceptions excs (calls w) j ->
  undisturbed loop (calls w) j ->
  func args (calls w + j)%nat = Return v ->
  wrapper_async func tries delay exceptions backoff loop args w
  = (Returned v,
     mkWorld (S (calls w + j))
       (trace w
          ++ retry_events EvAsyncioSleep tries excs backoff 0 (calls w) delay j
          ++ [EvCall])).
Proof.
  intros Hj Hfail Hloop Hret. unfold wrapper_async.
  rewrite (range_split j Hj), async_loop_retries with (excs := excs)
    by (assumption || lia).
  rewrite async_step_return with (v := v) by assumption.
  simpl. now rewrite <- app_assoc.
Qed.

(** The operation fails [j] times and is retried, then raises an exception
    that the [except] clause does not catch. *)
Lemma wrapper_sync_propagates excs (j : nat) (w : World T) ex :
  Z.of_nat j < tries ->
  fails_retryably func args exceptions excs (calls w) j ->
  func args (calls w + j)%nat = Raise ex ->
  isinstance ex exceptions = false ->
  wrapper_sync func tries delay exceptions backoff args w
  = (Raised ex,
     mkWorld (S (calls w + j))
       (trace w
          ++ retry_events EvTimeSleep tries excs backoff 0 (calls w) delay j
          ++ [EvCall])).
Proof.
  intros Hj Hfail Hex Hi. unfold wrapper_sync.
  rewrite (range_split j Hj), sync_loop_retries with (excs := excs)
    by (assumption || lia).
  rewrite sync_step_propagate with (ex := ex) by assumption.
  simpl. now rewrite <- app_assoc.
Qed.

Lemma wrapper_async_propagates loop excs (j : nat) (w : World T) ex :
  Z.of_nat j < tries ->
  fails_retryably func args exceptions excs (calls w) j ->
  undisturbed loop (calls w) j ->
  func args (calls w + j)%nat = Raise ex ->
  isinstance ex exceptions = false ->
  wrapper_async func tries delay exceptions backoff loop args w
  = (Raised ex,
     mkWorld (S (calls w + j))
       (trace w
          ++ retry_events EvAsyncioSleep tries excs backoff 0 (calls w) delay j
          ++ [EvCall])).
Proof.
  intros Hj Hfail Hloop Hex Hi. unfold wrapper_async.
  rewrite (range_split j Hj), async_loop_retries with (excs := excs)
    by (assumption || lia).
  rewrite async_step_propagate with (ex := ex) by assumption.
  simpl. now rewrite <- app_assoc.
Qed.


(** The operation fails on each of the [tries] attempts. *)
Lemma wrapper_sync_exhausted excs (w : World T) :
  1 <= tries ->
  fails_retryably func args exceptions excs (calls w) (Z.to_nat tries) ->
  wrapper_sync func tries delay exceptions backoff args w
  = (Raised (excs (calls w + (Z.to_nat tries - 1))%nat),
     mkWorld (calls w + Z.to_nat tries)
       (trace w
          ++ retry_events EvTimeSleep tries excs backoff 0 (calls w) delay
               (Z.to_nat tries - 1)
          ++ [EvCall;
              EvError tries (excs (calls w + (Z.to_nat tries - 1))%nat)])).
Proof.
  intros Hn Hfail. unfold wrapper_sync.
  assert (Hpre : fails_retryably func args exceptions excs (calls w)
                   (Z.to_nat tries - 1))
    by (intros k Hk; apply Hfail; lia).
  destruct (Hfail (calls w + (Z.to_nat tries - 1))%nat) as [Hf Hi]; [lia |].
  rewrite (range_last tries Hn).
  rewrite sync_loop_retries with (excs := excs) by (assumption || lia).
  rewrite sync_step_exhausted
    with (ex := excs (calls w + (Z.to_nat tries - 1))%nat)
    by (assumption || lia).
  simpl. rewrite <- app_assoc. do 2 f_equal. lia.
Qed.

Lemma wrapper_async_exhausted loop excs (w : World T) :
  1 <= tries ->
  fails_retryably func args exceptions excs (calls w) (Z.to_nat tries) ->
  undisturbed loop (calls w) (Z.to_nat tries - 1) ->
  wrapper_async func tries delay exceptions backoff loop args w
  = (Raised (excs (calls w + (Z.to_nat tries - 1))%nat),
     mkWorld (calls w + Z.to_nat tries)
       (trace w
          ++ retry_events EvAsyncioSleep tries excs backoff 0 (calls w) delay
               (Z.to_nat tries - 1)
          ++ [EvCall;
              EvError tries (excs (calls w + (Z.to_nat tries - 1))%nat)])).
Proof.
  intros Hn Hfail Hloop. unfold wrapper_async.
  assert (Hpre : fails_retryably func args exceptions excs (calls w)
                   (Z.to_nat tries - 1))
    by (intros k Hk; apply Hfail; lia).
  destruct (Hfail (calls w + (Z.to_nat tries - 1))%nat) as [Hf Hi]; [lia |].
  rewrite (range_last tries Hn).
  rewrite async_loop_retries with (excs := excs) by (assumption || lia).
  rewrite async_step_exhausted
    with (ex := excs (calls w + (Z.to_nat tries - 1))%nat)
    by (assumption || lia).
  simpl. rewrite <- app_assoc. do 2 f_equal. lia.
Qed.

End Runs.

(** ** The two modes side by side *)

Section Modes.
Context {T : Type} {num : PyNumber T} {Args V : Type}.
Variables f_sync f_async : Operation Args V.
Variable tries : Z.
Variable exceptions : ExceptionsArg.
Variable backoff : T.
Variable args : Args.
Variable loop : EventLoop.
Hypothesis same_outcomes : forall k, f_sync args k = f_async args k.
Hypothesis never_cancelled : forall k, loop k = None.




End Modes.

(** ** The properties of the wrappers *)





(** C3.  If the exception the operation raises on the first attempt is not
    an instance of the configured [exceptions], it leaves the wrapper of
    either mode at once and unchanged, whatever [tries >= 1] is: the
    operation has been invoked once, nothing was logged and no wait was
    made. *)
Theorem non_retryable_propagates_at_once
    {T : Type} {num : PyNumber T} {Args V : Type}
    (func : Operation Args V) (tries : Z) (delay : T)
    (exceptions : ExceptionsArg) (backoff : T) (args : Args)
    (loop : EventLoop) (ex : PyException) (w : World T) :
  1 <= tries ->
  func args (calls w) = Raise ex ->
  isinstance ex exceptions = false ->
  let rs := wrapper_sync func tries delay exceptions backoff args w in
  let ra := wrapper_async func tries delay exceptions backoff loop args w in
  (rs = (Raised ex, mkWorld (S (calls w)) (trace w ++ [EvCall])) /\
   ra = (Raised ex, mkWorld (S (calls w)) (trace w ++ [EvCall]))) /\
  (log_of (trace (snd rs)) = log_of (trace w) /\
   sleeps (trace (snd rs)) = sleeps (trace w) /\
   invocations (trace (snd rs)) = S (invocations (trace w))) /\
  (log_of (trace (snd ra)) = log_of (trace w) /\
   sleeps (trace (snd ra)) = sleeps (trace w) /\
   invocations (trace (snd ra)) = S (invocations (trace w))).
Proof.
  intros Hn Hex Hi rs ra.
  assert (Hnone : fails_retryably func args exceptions (fun _ => ex) (calls w) 0)
    by (intros k Hk; lia).
  assert (Hs : rs = (Raised ex, mkWorld (S (calls w)) (trace w ++ [EvCall]))).
  { subst rs.
    rewrite (wrapper_sync_propagates func tries delay exceptions backoff args
               (fun _ => ex) 0 w ex)
      by (rewrite ?Nat.add_0_r; assumption || lia).
    simpl. now rewrite Nat.add_0_r. }
  assert (Ha : ra = (Raised ex, mkWorld (S (calls w)) (trace w ++ [EvCall]))).
  { subst ra.
    rewrite (wrapper_async_propagates func tries delay exceptions backoff args
               loop (fun _ => ex) 0 w ex)
      by (rewrite ?Nat.add_0_r; assumption || lia || (intros k Hk; lia)).
    simpl. now rewrite Nat.add_0_r. }
  rewrite Hs, Ha. simpl.
  rewrite log_of_app, sleeps_app, invocations_app. simpl.
  rewrite !app_nil_r.
  change (invocations (@cons (Event T) EvCall nil)) with 1%nat.
  repeat split; lia.
Qed.

Lemma non_retryable_propagates_at_once_witness :
  let rs := wrapper_sync (behaviour test_specific_exception) 3 0.0%float
              (OneClass ValueError) 1.0%float tt new_world in
  let ra := wrapper_async (behaviour test_specific_exception) 3 0.0%float
              (OneClass ValueError) 1.0%float quiet_loop tt new_world in
  (rs = (Raised (mkExc 0 RuntimeError "This won't be retried"),
         mkWorld 1 [EvCall]) /\
   ra = (Raised (mkExc 0 RuntimeError "This won't be retried"),
         mkWorld 1 [EvCall])) /\
  (log_of (trace (snd rs)) = [] /\ sleeps (trace (snd rs)) = [] /\
   invocations (trace (snd rs)) = 1%nat) /\
  (log_of (trace (snd ra)) = [] /\ sleeps (trace (snd ra)) = [] /\
   invocations (trace (snd ra)) = 1%nat).
Proof.
  apply (non_retryable_propagates_at_once (behaviour test_specific_exception)
           3 0.0%float (OneClass ValueError) 1.0%float tt quiet_loop
           (mkExc 0 RuntimeError "This won't be retried") new_world).
  - lia.
  - reflexivity.
  - reflexivity.
Defined.

Lemma range_nonempty (tries : Z) : 1 <= tries -> range tries <> [].
Proof.
  intros Hn. rewrite (range_last tries Hn).
  destruct (map Z.of_nat (seq 0 (Z.to_nat tries - 1))); discriminate.
Qed.




(** The exceptions that derive from [BaseException] only are not caught
    under the default filter. *)
Lemma default_filter_lets_signals_through (id : nat) (msg : string) :
  isinstance (mkExc id KeyboardInterrupt msg) (OneClass Exception) = false /\
  isinstance (mkExc id SystemExit msg) (OneClass Exception) = false /\
  isinstance (mkExc id CancelledError msg) (OneClass Exception) = false.
Proof. repeat split. Qed.









(** C8.  Binding with no option is binding with [tries=5], [delay=0.0],
    [exceptions=Exception] and [backoff=1.0]: [__repeat__] returns the same
    decorator, and the same wrapper when it is given the function, so the
    two wrapped forms end the same way in the same world on every call. *)
Theorem no_options_is_explicit_defaults (Args V : Type) :
  @__repeat__ Args V None None None None None
  = __repeat__ None (Some 5) (Some 0.0%float) (Some (OneClass Exception))
      (Some 1.0%float)
  /\
  (forall func : Callable Args V,
      __repeat__ (Some func) None None None None
      = __repeat__ (Some func) (Some 5) (Some 0.0%float)
          (Some (OneClass Exception)) (Some 1.0%float))
  /\
  (forall (_func : option (Callable Args V)) (func : Callable Args V)
          (loop : EventLoop) (args : Args) (w : World float),
      call_wrapper (bound (__repeat__ _func None None None None) func)
        loop args w
      = call_wrapper
          (bound (__repeat__ _func (Some 5) (Some 0.0%float)
                    (Some (OneClass Exception)) (Some 1.0%float)) func)
          loop args w).
Proof. repeat split. Qed.

(** Bare [@__repeat__] and [@__repeat__()] wrap a function the same way. *)
Lemma bare_decorator_is_called_decorator {Args V : Type}
    (func : Callable Args V) tries delay exceptions backoff :
  bound (__repeat__ (Some func) tries delay exceptions backoff) func
  = bound (__repeat__ None tries delay exceptions backoff) func.
Proof. reflexivity. Qed.




(** C10.  With [tries = 0] the wrapper of either mode does not invoke the
    operation: the world is unchanged, and the wrapper ends in
    [raise last_exception] with [last_exception] still [None]: an error of
    the wrapper, not an exception of the operation. *)
Theorem zero_tries_raises_none
    {T : Type} {num : PyNumber T} {Args V : Type}
    (func : Operation Args V) (delay : T) (exceptions : ExceptionsArg)
    (backoff : T) (args : Args) (loop : EventLoop) (w : World T) :
  wrapper_sync func 0 delay exceptions backoff args w = (RaisedNone, w) /\
  wrapper_async func 0 delay exceptions backoff loop args w = (RaisedNone, w).
Proof. split; reflexivity. Qed.

(** The same holds of every [tries <= 0]. *)
Lemma nonpositive_tries_raises_none
    {T : Type} {num : PyNumber T} {Args V : Type}
    (func : Operation Args V) (tries : Z) (delay : T)
    (exceptions : ExceptionsArg) (backoff : T) (args : Args)
    (loop : EventLoop) (w : World T) :
  tries <= 0 ->
  wrapper_sync func tries delay exceptions backoff args w = (RaisedNone, w) /\
  wrapper_async func tries delay exceptions backoff loop args w
  = (RaisedNone, w).
Proof.
  intros Hn. unfold wrapper_sync, wrapper_async.
  rewrite (range_empty tries Hn). split; reflexivity.
Qed.

(** ** The wrappers on any operation *)

Section AnyOperation.
Context {T : Type} {num : PyNumber T} {Args V : Type}.
Variable func : Operation Args V.
Variable tries : Z.
Variable delay : T.
Variable exceptions : ExceptionsArg.
Variable backoff : T.
Variable args : Args.

Lemma caught_raised (k : nat) :
  caught func args exceptions k = true ->
  func args k = Raise (raised_at func args k)
  /\ isinstance (raised_at func args k) exceptions = true.
Proof.
  unfold caught, raised_at. destruct (func args k) as [v | ex]; intros Hc.
  - discriminate.
  - split; [reflexivity | assumption].
Qed.

Lemma caught_in_a_row_le (n : nat) :
  forall c, (caught_in_a_row func args exceptions c n <= n)%nat.
Proof.
  induction n as [| n IH]; intros c; simpl; [lia |].
  destruct (caught func args exceptions c); [| lia].
  specialize (IH (S c)). lia.
Qed.

Lemma caught_in_a_row_caught (n : nat) :
  forall c k,
    (c <= k < c + caught_in_a_row func args exceptions c n)%nat ->
    caught func args exceptions k = true.
Proof.
  induction n as [| n IH]; intros c k Hk; simpl in Hk; [lia |].
  destruct (caught func args exceptions c) eqn:Hc; [| lia].
  destruct (Nat.eq_dec k c) as [-> | Hne]; [assumption |].
  apply (IH (S c)). lia.
Qed.

Lemma caught_in_a_row_stop (n : nat) :
  forall c,
    (caught_in_a_row func args exceptions c n < n)%nat ->
    caught func args exceptions
      (c + caught_in_a_row func args exceptions c n) = false.
Proof.
  induction n as [| n IH]; intros c Hlt; simpl in *; [lia |].
  destruct (caught func args exceptions c) eqn:Hc.
  - replace (c + S (caught_in_a_row func args exceptions (S c) n))%nat
      with (S c + caught_in_a_row func args exceptions (S c) n)%nat by lia.
    apply IH. lia.
  - now rewrite Nat.add_0_r.
Qed.

Lemma fails_retryably_caught_in_a_row (c n : nat) :
  fails_retryably func args exceptions (raised_at func args) c
    (caught_in_a_row func args exceptions c n).
Proof.
  intros k Hk. apply caught_raised.
  now apply caught_in_a_row_caught with (n := n) (c := c).
Qed.

Lemma error_of_uncaught (k : nat) :
  caught func args exceptions k = false ->
  @error_of T Args V func args tries exceptions k = [].
Proof.
  unfold caught, error_of. destruct (func args k); [reflexivity |].
  now intros ->.
Qed.

(** Every call of the blocking wrapper has one shape: the leading caught
    failures are retried, and the call ends with the invocation after
    them. *)
Lemma wrapper_sync_shape (w : World T) :
  1 <= tries ->
  let j := caught_in_a_row func args exceptions (calls w)
             (Z.to_nat tries - 1) in
  wrapper_sync func tries delay exceptions backoff args w
  = (result_of (func args (calls w + j)%nat),
     mkWorld (S (calls w + j))
       (trace w
          ++ retry_events EvTimeSleep tries (raised_at func args) backoff 0
               (calls w) delay j
          ++ EvCall :: error_of func args tries exceptions (calls w + j)%nat)).
Proof.
  intros Hn j.
  pose proof (caught_in_a_row_le (Z.to_nat tries - 1) (calls w)) as Hle.
  pose proof (fails_retryably_caught_in_a_row (calls w) (Z.to_nat tries - 1))
    as Hfail.
  fold j in Hle, Hfail.
  destruct (caught func args exceptions (calls w + j)%nat) eqn:Hc.
  - assert (Hj : j = (Z.to_nat tries - 1)%nat).
    { destruct (Nat.eq_dec j (Z.to_nat tries - 1)) as [| Hne]; [assumption |].
      pose proof (caught_in_a_row_stop (Z.to_nat tries - 1) (calls w)) as Hstop.
      fold j in Hstop. rewrite Hstop in Hc by lia. discriminate. }
    destruct (caught_raised _ Hc) as [Hf Hi].
    rewrite (wrapper_sync_exhausted func tries delay exceptions backoff args
               (raised_at func args) w Hn).
    + rewrite <- Hj. unfold error_of. rewrite Hf, Hi. simpl.
      do 2 f_equal. lia.
    + intros k Hk. destruct (Nat.eq_dec k (calls w + j)%nat) as [-> | Hne].
      * split; assumption.
      * apply Hfail. lia.
  - rewrite (error_of_uncaught _ Hc).
    unfold caught in Hc.
    destruct (func args (calls w + j)%nat) as [v | ex] eqn:Hf.
    + apply wrapper_sync_returns; (assumption || lia).
    + apply wrapper_sync_propagates; (assumption || lia).
Qed.

(** The same shape in suspending mode, on an event loop that lets the waits
    of this call run to their end. *)
Lemma wrapper_async_shape (loop : EventLoop) (w : World T) :
  1 <= tries ->
  let j := caught_in_a_row func args exceptions (calls w)
             (Z.to_nat tries - 1) in
  undisturbed loop (calls w) j ->
  wrapper_async func tries delay exceptions backoff loop args w
  = (result_of (func args (calls w + j)%nat),
     mkWorld (S (calls w + j))
       (trace w
          ++ retry_events EvAsyncioSleep tries (raised_at func args) backoff 0
               (calls w) delay j
          ++ EvCall :: error_of func args tries exceptions (calls w + j)%nat)).
Proof.
  intros Hn j Hloop.
  pose proof (caught_in_a_row_le (Z.to_nat tries - 1) (calls w)) as Hle.
  pose proof (fails_retryably_caught_in_a_row (calls w) (Z.to_nat tries - 1))
    as Hfail.
  fold j in Hle, Hfail.
  destruct (caught func args exceptions (calls w + j)%nat) eqn:Hc.
  - assert (Hj : j = (Z.to_nat tries - 1)%nat).
    { destruct (Nat.eq_dec j (Z.to_nat tries - 1)) as [| Hne]; [assumption |].
      pose proof (caught_in_a_row_stop (Z.to_nat tries - 1) (calls w)) as Hstop.
      fold j in Hstop. rewrite Hstop in Hc by lia. discriminate. }
    destruct (caught_raised _ Hc) as [Hf Hi].
    rewrite (wrapper_async_exhausted func tries delay exceptions backoff args
               loop (raised_at func args) w Hn).
    + rewrite <- Hj. unfold error_of. rewrite Hf, Hi. simpl.
      do 2 f_equal. lia.
    + intros k Hk. destruct (Nat.eq_dec k (calls w + j)%nat) as [-> | Hne].
      * split; assumption.
      * apply Hfail. lia.
    + now rewrite <- Hj.
  - rewrite (error_of_uncaught _ Hc).
    unfold caught in Hc.
    destruct (func args (calls w + j)%nat) as [v | ex] eqn:Hf.
    + apply wrapper_async_returns; (assumption || lia).
    + apply wrapper_async_propagates; (assumption || lia).
Qed.

End AnyOperation.

Section RetryEventsFacts.
Context {T : Type} {num : PyNumber T}.






End RetryEventsFacts.

Section AnyRun.
Context {T : Type} {num : PyNumber T} {Args V : Type}.
Variable func : Operation Args V.
Variable tries : Z.
Variable exceptions : ExceptionsArg.
Variable backoff : T.
Variable args : Args.

Lemma length_range (n : Z) : List.length (range n) = Z.to_nat n.
Proof. unfold range. now rewrite length_map, length_seq. Qed.

(** One invocation per attempt at most. *)
Lemma sync_loop_bound attempts :
  forall last d (w : World T),
    let w' := snd (sync_loop func tries exceptions backoff args attempts last d w) in
    (calls w <= calls w' <= calls w + List.length attempts)%nat.
Proof.
  induction attempts as [| attempt rest IH]; intros last d w; simpl.
  - lia.
  - destruct (func args (calls w)) as [v | ex];
      [| destruct (isinstance ex exceptions);
         [destruct (attempt <? tries - 1); [destruct (py_gt0 d) |] |]];
      try match goal with
        | |- context [sync_loop _ _ _ _ _ _ ?l ?d' ?w1] =>
            specialize (IH l d' w1); simpl in IH; revert IH
        end;
      simpl; lia.
Qed.

Lemma async_loop_bound loop attempts :
  forall last d (w : World T),
    let w' := snd (async_loop func tries exceptions backoff loop args
                     attempts last d w) in
    (calls w <= calls w' <= calls w + List.length attempts)%nat.
Proof.
  induction attempts as [| attempt rest IH]; intros last d w; simpl.
  - lia.
  - destruct (func args (calls w)) as [v | ex];
      [| destruct (isinstance ex exceptions);
         [destruct (attempt <? tries - 1);
          [destruct (py_gt0 d); [destruct (loop (S (calls w))) |] |] |]];
      try match goal with
        | |- context [async_loop _ _ _ _ _ _ _ ?l ?d' ?w1] =>
            specialize (IH l d' w1); simpl in IH; revert IH
        end;
      simpl; lia.
Qed.

(** An invocation that is not the last of the call raised an exception that
    the [except] clause caught. *)
Lemma sync_loop_earlier_caught attempts :
  forall last d (w : World T) k,
    (calls w <= k)%nat ->
    (S k < calls (snd (sync_loop func tries exceptions backoff args
                         attempts last d w)))%nat ->
    caught func args exceptions k = true.
Proof.
  induction attempts as [| attempt rest IH]; intros last d w k Hk; simpl.
  - lia.
  - unfold caught at 1.
    destruct (Nat.eq_dec k (calls w)) as [-> | Hne].
    + destruct (func args (calls w)) as [v | ex]; [simpl; lia |].
      destruct (isinstance ex exceptions); [reflexivity | simpl; lia].
    + destruct (func args (calls w)) as [v | ex];
        [simpl; lia
        | destruct (isinstance ex exceptions);
          [destruct (attempt <? tries - 1); [destruct (py_gt0 d) |]
          | simpl; lia]];
        intros Hlt; eapply IH; try exact Hlt; simpl; lia.
Qed.

Lemma async_loop_earlier_caught loop attempts :
  forall last d (w : World T) k,
    (calls w <= k)%nat ->
    (S k < calls (snd (async_loop func tries exceptions backoff loop args
                         attempts last d w)))%nat ->
    caught func args exceptions k = true.
Proof.
  induction attempts as [| attempt rest IH]; intros last d w k Hk; simpl.
  - lia.
  - unfold caught at 1.
    destruct (Nat.eq_dec k (calls w)) as [-> | Hne].
    + destruct (func args (calls w)) as [v | ex]; [simpl; lia |].
      destruct (isinstance ex exceptions); [reflexivity | simpl; lia].
    + destruct (func args (calls w)) as [v | ex];
        [simpl; lia
        | destruct (isinstance ex exceptions);
          [destruct (attempt <? tries - 1);
           [destruct (py_gt0 d);
            [destruct (loop (S (calls w))); [simpl; lia |] |] |]
          | simpl; lia]];
        intros Hlt; eapply IH; try exact Hlt; simpl; lia.
Qed.

(** Delays that never become positive: no wait is made, and the suspending
    loop, which then never awaits [asyncio.sleep], is the blocking loop. *)
Section NoWait.
Variable idle : T -> Prop.
Hypothesis idle_not_positive : forall d, idle d -> py_gt0 d = false.
Hypothesis idle_backoff : forall d, idle d -> idle (py_mul d backoff).

Lemma sync_loop_no_wait attempts :
  forall last d (w : World T),
    idle d ->
    sleeps (trace (snd (sync_loop func tries exceptions backoff args
                          attempts last d w)))
    = sleeps (trace w).
Proof.
  induction attempts as [| attempt rest IH]; intros last d w Hd; simpl.
  - reflexivity.
  - rewrite (idle_not_positive d Hd).
    destruct (func args (calls w)) as [v | ex];
      [| destruct (isinstance ex exceptions);
         [destruct (attempt <? tries - 1) |]];
      rewrite ?IH by auto;
      unfold logger_warning, logger_error, emit; simpl;
      rewrite ?sleeps_app; simpl; rewrite ?app_nil_r; reflexivity.
Qed.

Lemma async_loop_no_wait loop attempts :
  forall last d (w : World T),
    idle d ->
    async_loop func tries exceptions backoff loop args attempts last d w
    = sync_loop func tries exceptions backoff args attempts last d w.
Proof.
  induction attempts as [| attempt rest IH]; intros last d w Hd; simpl.
  - reflexivity.
  - rewrite (idle_not_positive d Hd).
    destruct (func args (calls w)) as [v | ex]; [reflexivity |].
    destruct (isinstance ex exceptions); [| reflexivity].
    destruct (attempt <? tries - 1); apply IH; auto.
Qed.

End NoWait.

End AnyRun.

(** ** Floats that stay at zero *)

Lemma zero_or_nan_not_positive (x : float) :
  zero_or_nan x -> py_gt0 x = false.
Proof.
  unfold zero_or_nan. simpl py_gt0. rewrite ltb_spec.
  destruct (Prim2SF x); simpl; try tauto; intros _; reflexivity.
Qed.

Lemma zero_or_nan_mul (x b : float) :
  zero_or_nan x -> zero_or_nan (py_mul x b).
Proof.
  unfold zero_or_nan. simpl py_mul. rewrite mul_spec.
  destruct (Prim2SF x), (Prim2SF b); simpl; tauto.
Qed.

(** ** Further properties of the wrappers *)



(** X2.  Whatever the operation does, and whatever the event loop does, one
    call of the wrapper invokes the operation at most [tries] times (not at
    all when [tries <= 0]), and at least once when [tries >= 1]. *)
Theorem invocations_between_one_and_tries
    {T : Type} {num : PyNumber T} {Args V : Type}
    (func : Operation Args V) (tries : Z) (delay : T)
    (exceptions : ExceptionsArg) (backoff : T) (args : Args)
    (loop : EventLoop) (w : World T) :
  let ws := snd (wrapper_sync func tries delay exceptions backoff args w) in
  let wa := snd (wrapper_async func tries delay exceptions backoff loop args w) in
  (calls w <= calls ws <= calls w + Z.to_nat tries)%nat /\
  (calls w <= calls wa <= calls w + Z.to_nat tries)%nat /\
  (1 <= tries -> (calls w < calls ws)%nat /\ (calls w < calls wa)%nat).
Proof.
  intros ws wa. subst ws wa. unfold wrapper_sync, wrapper_async.
  pose proof (sync_loop_bound func tries exceptions backoff args
                (range tries) None delay w) as Hs.
  pose proof (async_loop_bound func tries exceptions backoff args loop
                (range tries) None delay w) as Ha.
  rewrite length_range in Hs, Ha. simpl in Hs, Ha.
  split; [exact Hs |]. split; [exact Ha |].
  intros Hn. pose proof (range_nonempty tries Hn) as Hne. split.
  - destruct (sync_loop func tries exceptions backoff args (range tries)
                None delay w) as [r w'] eqn:Hrun.
    apply sync_loop_result in Hrun. simpl.
    destruct r as [v | ex |].
    + tauto.
    + destruct Hrun as [[Hnil _] | [Hlt _]]; [contradiction | assumption].
    + destruct Hrun as [Hnil _]. contradiction.
  - destruct (async_loop func tries exceptions backoff loop args (range tries)
                None delay w) as [r w'] eqn:Hrun.
    apply async_loop_result in Hrun. simpl.
    destruct r as [v | ex |].
    + tauto.
    + destruct Hrun as [[Hnil _] | [Hlt _]]; [contradiction | assumption].
    + destruct Hrun as [Hnil _]. contradiction.
Qed.

(** X3.  The wrapper calls the operation again only after a caught
    exception: in every call, of either mode and on every event loop, each
    invocation but the last raised an exception that [except exceptions]
    catches; and a value that the wrapper returns is the value that the last
    invocation returned. *)
Theorem retries_only_after_caught_failure
    {T : Type} {num : PyNumber T} {Args V : Type}
    (func : Operation Args V) (tries : Z) (delay : T)
    (exceptions : ExceptionsArg) (backoff : T) (args : Args)
    (loop : EventLoop) (w : World T) :
  let rs := wrapper_sync func tries delay exceptions backoff args w in
  let ra := wrapper_async func tries delay exceptions backoff loop args w in
  (forall k, (calls w <= k)%nat -> (S k < calls (snd rs))%nat ->
     exists ex, func args k = Raise ex /\ isinstance ex exceptions = true) /\
  (forall k, (calls w <= k)%nat -> (S k < calls (snd ra))%nat ->
     exists ex, func args k = Raise ex /\ isinstance ex exceptions = true) /\
  (forall v, fst rs = Returned v ->
     func args (calls (snd rs) - 1)%nat = Return v) /\
  (forall v, fst ra = Returned v ->
     func args (calls (snd ra) - 1)%nat = Return v).
Proof.
  intros rs ra. subst rs ra. unfold wrapper_sync, wrapper_async.
  repeat split.
  - intros k Hk Hlt. exists (raised_at func args k).
    apply caught_raised.
    eapply sync_loop_earlier_caught; eassumption.
  - intros k Hk Hlt. exists (raised_at func args k).
    apply caught_raised.
    eapply async_loop_earlier_caught; eassumption.
  - intros v Hv.
    destruct (sync_loop func tries exceptions backoff args (range tries)
                None delay w) as [r w'] eqn:Hrun.
    apply sync_loop_result in Hrun. simpl in *. subst r. tauto.
  - intros v Hv.
    destruct (async_loop func tries exceptions backoff loop args (range tries)
                None delay w) as [r w'] eqn:Hrun.
    apply async_loop_result in Hrun. simpl in *. subst r. tauto.
Qed.



(** X5.  With [delay = 0] no wait is ever made, whatever [backoff] is: for
    Python ints, and for floats, where [0.0] times any float, infinite or
    not a number, is never a positive float.  This holds of every operation,
    of every [tries], of both modes and of every event loop. *)
Theorem zero_delay_never_waits :
  (forall (Args V : Type) (func : Operation Args V) (tries : Z)
          (exceptions : ExceptionsArg) (backoff : Z) (args : Args)
          (loop : EventLoop) (w : World Z),
      sleeps (trace (snd (wrapper_sync func tries 0 exceptions backoff args w)))
      = sleeps (trace w) /\
      sleeps (trace (snd (wrapper_async func tries 0 exceptions backoff
                            loop args w)))
      = sleeps (trace w))
  /\
  (forall (Args V : Type) (func : Operation Args V) (tries : Z)
          (exceptions : ExceptionsArg) (backoff : float) (args : Args)
          (loop : EventLoop) (w : World float),
      sleeps (trace (snd (wrapper_sync func tries 0.0%float exceptions
                            backoff args w)))
      = sleeps (trace w) /\
      sleeps (trace (snd (wrapper_async func tries 0.0%float exceptions
                            backoff loop args w)))
      = sleeps (trace w)).
Proof.
  split; intros Args V func tries exceptions backoff args loop w;
    unfold wrapper_sync, wrapper_async.
  - assert (Hnp : forall d : Z, d = 0 -> py_gt0 d = false)
      by (intros d ->; reflexivity).
    assert (Hmul : forall d : Z, d = 0 -> py_mul d backoff = 0)
      by (intros d ->; reflexivity).
    rewrite (async_loop_no_wait func tries exceptions backoff args
               (fun d => d = 0) Hnp Hmul loop) by reflexivity.
    split; apply (sync_loop_no_wait func tries exceptions backoff args
                    (fun d => d = 0) Hnp Hmul); reflexivity.
  - pose proof zero_or_nan_not_positive as Hnp.
    assert (Hmul : forall d, zero_or_nan d -> zero_or_nan (py_mul d backoff))
      by (intros d; apply zero_or_nan_mul).
    rewrite (async_loop_no_wait func tries exceptions backoff args
               zero_or_nan Hnp Hmul loop) by exact I.
    split; apply (sync_loop_no_wait func tries exceptions backoff args
                    zero_or_nan Hnp Hmul); exact I.
Qed.

(** X6.  With [delay = 0] the suspending wrapper never awaits
    [asyncio.sleep]: whatever the event loop would throw into the task during
    a wait, the call ends as the blocking wrapper's call ends, in the same
    world. *)
Theorem zero_delay_async_is_sync :
  (forall (Args V : Type) (func : Operation Args V) (tries : Z)
          (exceptions : ExceptionsArg) (backoff : Z) (args : Args)
          (loop : EventLoop) (w : World Z),
      wrapper_async func tries 0 exceptions backoff loop args w
      = wrapper_sync func tries 0 exceptions backoff args w)
  /\
  (forall (Args V : Type) (func : Operation Args V) (tries : Z)
          (exceptions : ExceptionsArg) (backoff : float) (args : Args)
          (loop : EventLoop) (w : World float),
      wrapper_async func tries 0.0%float exceptions backoff loop args w
      = wrapper_sync func tries 0.0%float exceptions backoff args w).
Proof.
  split; intros Args V func tries exceptions backoff args loop w;
    unfold wrapper_sync, wrapper_async.
  - apply (async_loop_no_wait func tries exceptions backoff args
             (fun d => d = 0)).
    + intros d ->. reflexivity.
    + intros d ->. reflexivity.
    + reflexivity.
  - apply (async_loop_no_wait func tries exceptions backoff args zero_or_nan).
    + apply zero_or_nan_not_positive.
    + intros d. apply zero_or_nan_mul.
    + exact I.
Qed.







Lemma caught_in_a_row_uncaught {Args V : Type} (func : Operation Args V)
    (args : Args) (exceptions : ExceptionsArg) (c n : nat) :
  caught func args exceptions c = false ->
  caught_in_a_row func args exceptions c n = O.
Proof. intros Hc. destruct n; simpl; [| rewrite Hc]; reflexivity. Qed.

(** A first attempt that returns, or raises an exception that is not caught,
    is the whole call. *)
Lemma wrapper_first_attempt_decides
    {T : Type} {num : PyNumber T} {Args V : Type}
    (func : Operation Args V) (tries : Z) (delay : T)
    (exceptions : ExceptionsArg) (backoff : T) (args : Args)
    (loop : EventLoop) (w : World T) :
  1 <= tries ->
  caught func args exceptions (calls w) = false ->
  wrapper_sync func tries delay exceptions backoff args w
  = (result_of (func args (calls w)),
     mkWorld (S (calls w)) (trace w ++ [EvCall]))
  /\
  wrapper_async func tries delay exceptions backoff loop args w
  = (result_of (func args (calls w)),
     mkWorld (S (calls w)) (trace w ++ [EvCall])).
Proof.
  intros Hn Hc.
  pose proof (caught_in_a_row_uncaught func args exceptions (calls w)
                (Z.to_nat tries - 1) Hc) as Hj.
  rewrite (wrapper_sync_shape func tries delay exceptions backoff args w Hn).
  rewrite (wrapper_async_shape func tries delay exceptions backoff args loop w
             Hn) by (rewrite Hj; intros k Hk; lia).
  rewrite Hj, Nat.add_0_r, (error_of_uncaught _ _ _ _ _ Hc).
  split; reflexivity.
Qed.

(** X9.  Decorating is transparent when the first attempt is not a caught
    failure: whatever options [__repeat__] is given (with [tries >= 1]), used
    bare or called, on a function or on a coroutine function and on every
    event loop, a call whose first invocation returns, or raises an
    exception that [except exceptions] does not catch, ends as that
    invocation ends, after this one invocation, with nothing logged and no
    wait made. *)
Theorem decorated_call_is_transparent
    {Args V : Type} (func : Callable Args V)
    (tries : option Z) (delay : option float)
    (exceptions : option ExceptionsArg) (backoff : option float)
    (loop : EventLoop) (args : Args) (w : World float) :
  1 <= keyword tries 5 ->
  caught (behaviour func) args (keyword exceptions (OneClass Exception))
    (calls w) = false ->
  let plain := (result_of (behaviour func args (calls w)),
                mkWorld (S (calls w)) (trace w ++ [EvCall])) in
  call_wrapper (bound (__repeat__ (Some func) tries delay exceptions backoff)
                  func) loop args w = plain
  /\
  call_wrapper (bound (__repeat__ None tries delay exceptions backoff) func)
    loop args w = plain.
Proof.
  intros Hn Hc plain. subst plain.
  destruct (wrapper_first_attempt_decides (behaviour func) (keyword tries 5)
              (keyword delay 0.0%float)
              (keyword exceptions (OneClass Exception))
              (keyword backoff 1.0%float) args loop w Hn Hc) as [Hs Ha].
  unfold __repeat__, bound, decorator_repeat, call_wrapper,
    _create_sync_wrapper, _create_async_wrapper.
  destruct (iscoroutinefunction func); split; assumption.
Qed.

Lemma decorated_call_is_transparent_witness :
  call_wrapper
    (bound (__repeat__ (Some test_specific_exception) (Some 3) None
              (Some (OneClass ValueError)) None) test_specific_exception)
    quiet_loop tt new_world
  = (Raised (mkExc 0 RuntimeError "This won't be retried"),
     mkWorld 1 [EvCall])
  /\
  call_wrapper
    (bound (__repeat__ None (Some 3) None (Some (OneClass ValueError)) None)
       test_specific_exception)
    quiet_loop tt new_world
  = (Raised (mkExc 0 RuntimeError "This won't be retried"),
     mkWorld 1 [EvCall]).
Proof.
  exact (decorated_call_is_transparent test_specific_exception (Some 3) None
           (Some (OneClass ValueError)) None quiet_loop tt new_world
           ltac:(simpl; lia) eq_refl).
Defined.

(** X10.  With the empty tuple as [exceptions] nothing is caught: under
    [tries >= 1] every call of either wrapper is one invocation of the
    operation and ends as it ends; nothing is logged and no wait is made. *)
Theorem empty_exceptions_never_retries
    {T : Type} {num : PyNumber T} {Args V : Type}
    (func : Operation Args V) (tries : Z) (delay : T) (backoff : T)
    (args : Args) (loop : EventLoop) (w : World T) :
  1 <= tries ->
  wrapper_sync func tries delay (ClassTuple []) backoff args w
  = (result_of (func args (calls w)),
     mkWorld (S (calls w)) (trace w ++ [EvCall]))
  /\
  wrapper_async func tries delay (ClassTuple []) backoff loop args w
  = (result_of (func args (calls w)),
     mkWorld (S (calls w)) (trace w ++ [EvCall])).
Proof.
  intros Hn. apply wrapper_first_attempt_decides; [assumption |].
  unfold caught. destruct (func args (calls w)); reflexivity.
Qed.

Lemma empty_exceptions_never_retries_witness :
  wrapper_sync (behaviour test_sync) 3 0.5%float (ClassTuple []) 2.0%float tt
    new_world
  = (Raised (mkExc 0 Exception "Sync test exception"), mkWorld 1 [EvCall])
  /\
  wrapper_async (behaviour test_sync) 3 0.5%float (ClassTuple []) 2.0%float
    cancelling_loop tt new_world
  = (Raised (mkExc 0 Exception "Sync test exception"), mkWorld 1 [EvCall]).
Proof.
  exact (empty_exceptions_never_retries (behaviour test_sync) 3 0.5%float
           2.0%float tt cancelling_loop new_world ltac:(lia)).
Defined.


